(** * MQTTSender: connection readiness check and multi-topic publish fan-out

    A shallow embedding of [lib/mqtt_sender.py].  The paho client, the clock,
    the logger and the interpreter's [exit] are the outside world of the
    class: every call the class makes on them is recorded, in program order,
    in the trace of a [World]; what the client answers is given by a
    [Client] record.  Methods are computations in a state-and-exception
    monad [M] over worlds, in which a raised exception keeps the world
    reached so far. *)

From Stdlib Require Import ZArith List String Ascii Bool Lia DecimalString.
From Stdlib Require DecimalPos DecimalZ.
From ExtLib Require Import Structures.Monad.
Import ListNotations.
Import MonadNotation.
Local Open Scope string_scope.
Local Open Scope list_scope.
Local Open Scope monad_scope.

(** ** Python values and the outside world *)

(** The arguments of [publish] are handed to the client untouched, whatever
    their type: they are kept as untyped Python objects. *)
Inductive pyobj : Type :=
| PyNone
| PyBool (b : bool)
| PyInt (z : Z)
| PyBytes (bs : list Byte.byte)
| PyStr (s : string).

Inductive level : Type := DEBUG | INFO | CRITICAL.

(** One entry per call made on an external collaborator. *)
Inductive event : Type :=
| Connect (username password hostname : string) (port : Z)
| LoopStart
| LoopStop (force : bool)
| Sleep (secs : nat)
| IsConnected (answer : bool)
| SetOnPublish
| Log (lvl : level) (msg : string)
| Print (msg : string)
| Publish (topic : string) (payload qos retain properties : pyobj).

(** [clock] counts the seconds slept so far, [trace] lists the calls made so
    far, oldest first. *)
Record World : Type := mkWorld { clock : nat; trace : list event }.

Inductive exn : Type :=
| SystemExit (code : Z)
| TransportError (msg : string).

(** What the client does when called.  Its answers may depend on everything
    that happened before, hence on the world. *)
Record Client : Type := mkClient {
  connected : World -> bool;
  connect_error : World -> option string;
  publish_error : World -> string -> pyobj -> pyobj -> pyobj -> pyobj ->
                  option string
}.

(** [lib.util.environment]: the configuration keys the class reads. *)
Record Environment : Type := mkEnvironment {
  MQTT_SENDER_USERNAME : string;
  MQTT_SENDER_PASSWORD : string;
  MQTT_SENDER_HOSTNAME : string;
  MQTT_SENDER_PORT : Z;
  MQTT_SENDER_TOPICS : list string;
  MQTT_CLIENT_CONNECTION_TIMEOUT_SECONDS : Z
}.

(** ** The monad of methods *)

Inductive result (A : Type) : Type :=
| Return (a : A)
| Raise (e : exn).
Arguments Return {A} a.
Arguments Raise {A} e.

Definition M (A : Type) : Type := World -> result A * World.

Definition M_ret {A : Type} (a : A) : M A := fun w => (Return a, w).

Definition M_bind {A B : Type} (m : M A) (k : A -> M B) : M B :=
  fun w =>
    match m w with
    | (Return a, w') => k a w'
    | (Raise e, w') => (Raise e, w')
    end.

#[global] Instance Monad_M : Monad M :=
  {| ret := @M_ret; bind := @M_bind |}.

Definition raise {A : Type} (e : exn) : M A := fun w => (Raise e, w).

Definition emit (e : event) : M unit :=
  fun w => (Return tt, mkWorld (clock w) (trace w ++ [e])).

(** ** Python control flow and formatting *)

Inductive flow : Type := Next | Break.

(** [for x in xs: body], where the body says whether it ran into [break]. *)
Fixpoint for_in {A : Type} (xs : list A) (body : A -> M flow) : M unit :=
  match xs with
  | [] => ret tt
  | x :: xs' =>
      f <- body x ;;
      match f with
      | Break => ret tt
      | Next => for_in xs' body
      end
  end.

(** [range(n)] for an integer [n]: empty when [n <= 0]. *)
Definition range (n : Z) : list nat := seq 0 (Z.to_nat n).

(** [str] on a loop index and on an integer. *)
Definition str_nat (n : nat) : string := NilEmpty.string_of_uint (Nat.to_uint n).
Definition str_int (z : Z) : string := NilZero.string_of_int (Z.to_int z).

(** The double-quote character of the topic log line. *)
Definition dquote : string := String (ascii_of_nat 34) EmptyString.

(** ** The collaborators *)

Definition time_sleep (secs : nat) : M unit :=
  fun w => (Return tt, mkWorld (clock w + secs) (trace w ++ [Sleep secs])).

Definition exit {A : Type} (code : Z) : M A := raise (SystemExit code).

Definition logging_info (msg : string) : M unit := emit (Log INFO msg).
Definition logging_debug (msg : string) : M unit := emit (Log DEBUG msg).
Definition logging_critical (msg : string) : M unit := emit (Log CRITICAL msg).
Definition print (msg : string) : M unit := emit (Print msg).

Definition client_loop_start : M unit := emit LoopStart.
Definition client_loop_stop (force : bool) : M unit := emit (LoopStop force).

Definition client_is_connected (c : Client) : M bool :=
  fun w =>
    let b := connected c w in
    (Return b, mkWorld (clock w) (trace w ++ [IsConnected b])).

Definition client_set_on_publish : M unit := emit SetOnPublish.

(** The call is recorded whether it returns or raises. *)
Definition client_publish (c : Client)
    (topic : string) (payload qos retain properties : pyobj) : M unit :=
  fun w =>
    let w' := mkWorld (clock w)
                (trace w ++ [Publish topic payload qos retain properties]) in
    match publish_error c w topic payload qos retain properties with
    | None => (Return tt, w')
    | Some msg => (Raise (TransportError msg), w')
    end.

(** Modelled from the spec: [MQTTClient._connect] of [lib/mqtt_client.py],
    which is not part of the sources at hand.  The spec only says that the
    transport-level connect has been initiated before the readiness check is
    invoked: the model records the connect request and lets the transport
    refuse it. *)
Definition _connect (c : Client)
    (username password hostname : string) (port : Z) : M unit :=
  fun w =>
    let w' := mkWorld (clock w)
                (trace w ++ [Connect username password hostname port]) in
    match connect_error c w with
    | None => (Return tt, w')
    | Some msg => (Raise (TransportError msg), w')
    end.

(** ** class MQTTSender *)

Record MQTTSender : Type := mkMQTTSender {
  client_type : string;
  client : Client;
  topics : list string
}.

(** The bound of the polling loop: [max(1, environment.get(...))]. *)
Definition wait_bound (env : Environment) : Z :=
  Z.max 1 (MQTT_CLIENT_CONNECTION_TIMEOUT_SECONDS env).

(** The body of the polling loop of [test_connection]. *)
Definition poll (c : Client) (second : nat) : M flow :=
  time_sleep 1 ;;
  b <- client_is_connected c ;;
  if b : bool then
    logging_debug
      ("MQTTSender connected after " ++ str_nat second ++ " seconds")%string ;;
    ret Break
  else ret Next.

Definition test_connection (c : Client) (env : Environment) : M unit :=
  client_loop_start ;;
  for_in (range (wait_bound env)) (poll c) ;;
  b <- client_is_connected c ;;
  (if negb b then
     logging_critical "MQTTSender timed out while connecting" ;;
     exit (-1)
   else ret tt) ;;
  client_loop_stop true.

Definition _publish (c : Client)
    (topic : string) (payload qos retain properties : pyobj) : M unit :=
  client_publish c topic payload qos retain properties.

Definition publish (self : MQTTSender)
    (payload qos retain properties : pyobj) : M unit :=
  for_in (topics self) (fun topic =>
    _publish (client self) topic payload qos retain properties ;;
    ret Next).

(** The defaults of the keyword arguments of [publish]. *)
Definition default_qos : pyobj := PyInt 0.
Definition default_retain : pyobj := PyBool false.
Definition default_properties : pyobj := PyNone.

(** The static callback: [client] and [user_data] are received and unused. *)
Definition on_publish (client : Client) (user_data : pyobj) (mid : Z)
  : M unit :=
  print ("mid: " ++ str_int mid)%string.

(** [self.topics = []] followed by the loop appending each configured topic. *)
Fixpoint append_topics (acc : list string) (configured : list string)
  : M (list string) :=
  match configured with
  | [] => ret acc
  | topic :: rest =>
      logging_info ("MQTTSender will publish to topic " ++ dquote ++ topic
                    ++ dquote)%string ;;
      append_topics (acc ++ [topic]) rest
  end.

Definition __init__ (c : Client) (env : Environment) : M MQTTSender :=
  let mqtt_sender_username := MQTT_SENDER_USERNAME env in
  let mqtt_sender_password := MQTT_SENDER_PASSWORD env in
  let mqtt_sender_hostname := MQTT_SENDER_HOSTNAME env in
  let mqtt_sender_port := MQTT_SENDER_PORT env in
  logging_info ("MQTTSender setting connection to " ++ mqtt_sender_hostname
                ++ ":" ++ str_int mqtt_sender_port
                ++ " with username " ++ mqtt_sender_username
                ++ " and password " ++ mqtt_sender_password)%string ;;
  _connect c mqtt_sender_username mqtt_sender_password
             mqtt_sender_hostname mqtt_sender_port ;;
  logging_info "MQTTSender now testing connection..." ;;
  test_connection c env ;;
  client_set_on_publish ;;
  ts <- append_topics [] (MQTT_SENDER_TOPICS env) ;;
  ret (mkMQTTSender "MQTTSender" c ts).

(** ** Reading traces *)

(** The events of [n] polls that all found the connection down. *)
Fixpoint idle_polls (n : nat) : list event :=
  match n with
  | O => []
  | S n' => Sleep 1 :: IsConnected false :: idle_polls n'
  end.

(** The debug line of a poll that found the connection up. *)
Definition connected_after (second : nat) : event :=
  Log DEBUG ("MQTTSender connected after " ++ str_nat second ++ " seconds")%string.

Definition is_publish (e : event) : bool :=
  match e with Publish _ _ _ _ _ => true | _ => false end.

Definition is_loop_stop (e : event) : bool :=
  match e with LoopStop _ => true | _ => false end.

(** Seconds slept according to a trace. *)
Fixpoint slept (tr : list event) : nat :=
  match tr with
  | [] => 0
  | Sleep secs :: tr' => secs + slept tr'
  | _ :: tr' => slept tr'
  end.

(** An uncaught [SystemExit] with a non-zero code ends the process with a
    non-zero status. *)
Definition exits_nonzero {A : Type} (r : result A) : Prop :=
  match r with
  | Raise (SystemExit code) => code <> 0%Z
  | _ => False
  end.

(** An event of the polling loop: neither a publish nor a loop stop. *)
Definition quiet (e : event) : bool := negb (is_publish e || is_loop_stop e).

(** The body of the loop of [publish], and the call it makes for a topic. *)
Definition fan_out_body (c : Client) (payload qos retain properties : pyobj)
  : string -> M flow :=
  fun topic => _publish c topic payload qos retain properties ;; ret Next.

Definition transport_call (payload qos retain properties : pyobj)
    (topic : string) : event :=
  Publish topic payload qos retain properties.

(** The first log line of [__init__]. *)
Definition setting_line (env : Environment) : event :=
  Log INFO ("MQTTSender setting connection to " ++ MQTT_SENDER_HOSTNAME env
            ++ ":" ++ str_int (MQTT_SENDER_PORT env)
            ++ " with username " ++ MQTT_SENDER_USERNAME env
            ++ " and password " ++ MQTT_SENDER_PASSWORD env)%string.

(** The log line written for each configured topic. *)
Definition topic_line (topic : string) : event :=
  Log INFO ("MQTTSender will publish to topic " ++ dquote ++ topic
            ++ dquote)%string.

(** One call of [publish] as a caller makes it. *)
Record request : Type := mkRequest {
  req_payload : pyobj;
  req_qos : pyobj;
  req_retain : pyobj;
  req_properties : pyobj
}.

(** Not a method of the class: the shape of a program that uses it, which
    constructs the sender and then calls [publish] any number of times. *)
Fixpoint publish_each (self : MQTTSender) (reqs : list request) : M unit :=
  match reqs with
  | [] => ret tt
  | r :: reqs' =>
      publish self (req_payload r) (req_qos r) (req_retain r)
              (req_properties r) ;;
      publish_each self reqs'
  end.

Definition construct_then_publish (c : Client) (env : Environment)
    (reqs : list request) : M unit :=
  self <- __init__ c env ;;
  publish_each self reqs.

(** ** Assumptions on the liveness predicate *)

Definition never_live (c : Client) : Prop :=
  forall w, connected c w = false.

(** Counting seconds from [t0]: down before second [k], up at second [k]. *)
Definition first_live_at (c : Client) (t0 k : nat) : Prop :=
  (forall w, clock w < t0 + k -> connected c w = false) /\
  (forall w, clock w = t0 + k -> connected c w = true).

Definition live_since (c : Client) (t0 : nat) : Prop :=
  forall w, t0 <= clock w -> connected c w = true.

(** ** Sample inputs *)

Definition w0 : World := mkWorld 0 [].

(** A client whose connection comes up [k] seconds after start and stays up,
    and whose transport accepts everything. *)
Definition live_at (k : nat) : Client :=
  mkClient (fun w => (k <=? clock w)%nat) (fun _ => None)
           (fun _ _ _ _ _ _ => None).

(** A client that never connects. *)
Definition dead : Client :=
  mkClient (fun _ => false) (fun _ => None) (fun _ _ _ _ _ _ => None).

(** A connected client whose transport refuses topic [bad]. *)
Definition refusing (bad : string) : Client :=
  mkClient (fun _ => true) (fun _ => None)
           (fun _ topic _ _ _ _ =>
              if String.eqb topic bad then Some "refused" else None).

Definition env_with (ts : list string) (timeout : Z) : Environment :=
  mkEnvironment "user" "secret" "broker" 1883 ts timeout.

(** The events of a poll that found the connection up, if there was one. *)
Definition hit_events (hit : bool) (second : nat) : list event :=
  if hit then [Sleep 1; IsConnected true; connected_after second] else [].

(** The events that follow the closing query. *)
Definition closing_events (b : bool) : list event :=
  if b then [LoopStop true]
  else [Log CRITICAL "MQTTSender timed out while connecting"].

(** The last call made was a sleep: the world a poll of the loop sees. *)
Definition just_slept (w : World) : bool :=
  match rev (trace w) with
  | Sleep _ :: _ => true
  | _ => false
  end.

(** A client that reports the connection up right after a sleep only, and
    one that reports it up except right after a sleep. *)
Definition flapping : Client :=
  mkClient just_slept (fun _ => None) (fun _ _ _ _ _ _ => None).

Definition late : Client :=
  mkClient (fun w => negb (just_slept w)) (fun _ => None)
           (fun _ _ _ _ _ _ => None).

(** A client whose connect request is refused. *)
Definition unreachable : Client :=
  mkClient (fun _ => false) (fun _ => Some "connection refused")
           (fun _ _ _ _ _ _ => None).

(** * Lemmas on the monad and the loops *)

Lemma bind_unfold {A B : Type} (m : M A) (k : A -> M B) (w : World) :
  bind m k w =
  match m w with
  | (Return a, w') => k a w'
  | (Raise e, w') => (Raise e, w')
  end.
Proof. reflexivity. Qed.

Lemma slept_app tr1 tr2 : slept (tr1 ++ tr2) = slept tr1 + slept tr2.
Proof.
  induction tr1 as [|e tr1 IH]; simpl; [reflexivity|].
  destruct e; rewrite IH; lia.
Qed.

Lemma slept_idle_polls n : slept (idle_polls n) = n.
Proof. induction n as [|n IH]; simpl; [reflexivity | now rewrite IH]. Qed.

Section Polling.

Variable c : Client.

(** One poll, by the answer the client gives after the sleep. *)
Lemma poll_run second w :
  poll c second w =
  let w1 := mkWorld (clock w + 1) (trace w ++ [Sleep 1]) in
  if connected c w1
  then (Return Break,
        mkWorld (clock w + 1)
          (trace w ++ [Sleep 1; IsConnected true; connected_after second]))
  else (Return Next,
        mkWorld (clock w + 1) (trace w ++ [Sleep 1; IsConnected false])).
Proof.
  unfold poll, connected_after. cbn.
  unfold M_bind, time_sleep, client_is_connected. cbn.
  destruct (connected c _); cbn; rewrite <- !app_assoc; reflexivity.
Qed.

(** The loop finds the connection down on each of its [n] polls. *)
Lemma for_in_poll_idle n : forall a w,
  (forall w', clock w < clock w' <= clock w + n -> connected c w' = false) ->
  for_in (seq a n) (poll c) w =
  (Return tt, mkWorld (clock w + n) (trace w ++ idle_polls n)).
Proof.
  induction n as [|n IH]; intros a w Hdown.
  - cbn. unfold M_ret. rewrite Nat.add_0_r, app_nil_r. now destruct w.
  - cbn [seq for_in]. rewrite bind_unfold, poll_run. cbn zeta.
    rewrite Hdown by (cbn; lia).
    rewrite IH by (intros w' Hw'; apply Hdown; cbn in Hw'; lia).
    cbn. rewrite <- app_assoc. do 2 f_equal. lia.
Qed.

(** The loop leaves at the [k]-th poll, the first that finds the
    connection up. *)
Lemma for_in_poll_hit k : forall n a w,
  k < n ->
  (forall w', clock w < clock w' <= clock w + k -> connected c w' = false) ->
  (forall w', clock w' = clock w + S k -> connected c w' = true) ->
  for_in (seq a n) (poll c) w =
  (Return tt,
   mkWorld (clock w + S k)
     (trace w ++ idle_polls k
        ++ [Sleep 1; IsConnected true; connected_after (a + k)])).
Proof.
  induction k as [|k IH]; intros n a w Hk Hdown Hup.
  - destruct n as [|n]; [lia|].
    cbn [seq for_in]. rewrite bind_unfold, poll_run. cbn zeta.
    rewrite Hup by reflexivity. cbn. now rewrite Nat.add_0_r.
  - destruct n as [|n]; [lia|].
    cbn [seq for_in]. rewrite bind_unfold, poll_run. cbn zeta.
    rewrite Hdown by (cbn; lia).
    rewrite (IH n (S a)).
    + cbn [clock trace]. rewrite <- app_assoc. cbn [app].
      replace (S a + k) with (a + S k) by lia.
      f_equal. f_equal. lia.
    + lia.
    + intros w' Hw'. apply Hdown. cbn in Hw'. lia.
    + intros w' Hw'. apply Hup. cbn in Hw'. lia.
Qed.

End Polling.

Section Readiness.

Variable c : Client.

(** Whatever the client answers, the polling loop returns normally after at
    most [n] one-second sleeps, and only sleeps, polls and logs. *)
Lemma for_in_poll_any n : forall a w,
  exists j evs,
    for_in (seq a n) (poll c) w =
      (Return tt, mkWorld (clock w + j) (trace w ++ evs)) /\
    j <= n /\ (0 < n -> 0 < j) /\ slept evs = j /\
    forallb quiet evs = true /\
    (0 < n -> exists b rest, evs = Sleep 1 :: IsConnected b :: rest).
Proof.
  induction n as [|n IH]; intros a w.
  - exists 0, []. cbn. unfold M_ret.
    rewrite Nat.add_0_r, app_nil_r. destruct w.
    repeat split; try lia; reflexivity.
  - cbn [seq for_in]. rewrite bind_unfold, poll_run. cbn zeta.
    destruct (connected c _).
    + exists 1, [Sleep 1; IsConnected true; connected_after a].
      repeat split; try lia. intros _. now eexists _, _.
    + destruct (IH (S a) (mkWorld (clock w + 1)
                            (trace w ++ [Sleep 1; IsConnected false])))
        as (j & evs & Hrun & Hj & _ & Hslept & Hquiet & _).
      exists (S j), (Sleep 1 :: IsConnected false :: evs).
      rewrite Hrun. cbn [clock trace]. rewrite <- app_assoc. cbn [app].
      repeat split; try lia.
      * do 2 f_equal. lia.
      * cbn. now rewrite Hslept.
      * cbn. exact Hquiet.
      * intros _. now eexists _, _.
Qed.

(** [test_connection], by the outcome of its loop and of its last query. *)
Lemma test_connection_run env w :
  test_connection c env w =
  match for_in (range (wait_bound env)) (poll c)
               (mkWorld (clock w) (trace w ++ [LoopStart])) with
  | (Return _, w2) =>
      if connected c w2
      then (Return tt,
            mkWorld (clock w2)
              (trace w2 ++ [IsConnected true; LoopStop true]))
      else (Raise (SystemExit (-1)),
            mkWorld (clock w2)
              (trace w2 ++ [IsConnected false;
                            Log CRITICAL
                              "MQTTSender timed out while connecting"]))
  | (Raise e, w2) => (Raise e, w2)
  end.
Proof.
  unfold test_connection. cbn. unfold M_bind at 1. cbn.
  unfold M_bind at 1.
  destruct (for_in _ _ _) as [[[]|e] w2]; [|reflexivity].
  unfold M_bind, client_is_connected, client_loop_stop, logging_critical,
    exit, raise, emit, M_ret. cbn.
  destruct (connected c w2); cbn; rewrite <- ?app_assoc; reflexivity.
Qed.

Lemma wait_bound_positive env :
  (0 < MQTT_CLIENT_CONNECTION_TIMEOUT_SECONDS env)%Z ->
  wait_bound env = MQTT_CLIENT_CONNECTION_TIMEOUT_SECONDS env.
Proof. unfold wait_bound. lia. Qed.

Lemma wait_bound_coerced env :
  (MQTT_CLIENT_CONNECTION_TIMEOUT_SECONDS env <= 0)%Z -> wait_bound env = 1%Z.
Proof. unfold wait_bound. lia. Qed.

(** The run in which the connection comes up at the [S k]-th poll. *)
Lemma test_connection_hit env w k :
  (Z.of_nat (S k) <= wait_bound env)%Z ->
  (forall w', clock w < clock w' <= clock w + k -> connected c w' = false) ->
  (forall w', clock w' = clock w + S k -> connected c w' = true) ->
  test_connection c env w =
  (Return tt,
   mkWorld (clock w + S k)
     (trace w ++ LoopStart :: idle_polls k
        ++ [Sleep 1; IsConnected true; connected_after k;
            IsConnected true; LoopStop true])).
Proof.
  intros Hk Hdown Hup.
  rewrite test_connection_run. unfold range.
  rewrite (for_in_poll_hit c k); cbn [clock trace];
    [ | lia | exact Hdown | exact Hup ].
  rewrite Hup by reflexivity.
  rewrite <- !app_assoc. reflexivity.
Qed.

(** The run in which no poll finds the connection up. *)
Lemma test_connection_miss env w :
  (forall w', clock w < clock w' <= clock w + Z.to_nat (wait_bound env) ->
              connected c w' = false) ->
  test_connection c env w =
  (Raise (SystemExit (-1)),
   mkWorld (clock w + Z.to_nat (wait_bound env))
     (trace w ++ LoopStart :: idle_polls (Z.to_nat (wait_bound env))
        ++ [IsConnected false;
            Log CRITICAL "MQTTSender timed out while connecting"])).
Proof.
  intros Hdown.
  rewrite test_connection_run. unfold range.
  rewrite (for_in_poll_idle c); cbn [clock trace]; [ | exact Hdown ].
  rewrite Hdown by (cbn [clock]; unfold wait_bound; lia).
  rewrite <- !app_assoc. reflexivity.
Qed.

(** Every run, by its outcome: the events between [loop_start] and the last
    liveness query are those of the polling loop. *)
Lemma test_connection_any env w :
  exists j evs b,
    0 < j /\ (Z.of_nat j <= wait_bound env)%Z /\ slept evs = j /\
    forallb quiet evs = true /\
    (exists b1 rest, evs = Sleep 1 :: IsConnected b1 :: rest) /\
    test_connection c env w =
      (if b : bool then Return tt else Raise (SystemExit (-1)),
       mkWorld (clock w + j)
         (trace w ++ LoopStart :: evs ++ IsConnected b ::
            (if b then [LoopStop true]
             else [Log CRITICAL "MQTTSender timed out while connecting"]))).
Proof.
  assert (Hpos : 0 < Z.to_nat (wait_bound env)) by (unfold wait_bound; lia).
  rewrite test_connection_run. unfold range.
  destruct (for_in_poll_any (Z.to_nat (wait_bound env)) 0
              (mkWorld (clock w) (trace w ++ [LoopStart])))
    as (j & evs & Hrun & Hj & Hj0 & Hslept & Hquiet & Hhead).
  rewrite Hrun. cbn [clock trace].
  exists j, evs, (connected c (mkWorld (clock w + j)
                                 ((trace w ++ [LoopStart]) ++ evs))).
  repeat split; auto; try lia.
  destruct (connected c _); rewrite <- !app_assoc; reflexivity.
Qed.

End Readiness.

(** ** Fan-out and construction *)

Section FanOut.

Variable c : Client.
Variables payload qos retain properties : pyobj.

Local Abbreviation body := (fan_out_body c payload qos retain properties).
Local Abbreviation call := (transport_call payload qos retain properties).

Lemma publish_body_run topic w :
  body topic w =
  match publish_error c w topic payload qos retain properties with
  | None => (Return Next, mkWorld (clock w) (trace w ++ [call topic]))
  | Some msg =>
      (Raise (TransportError msg),
       mkWorld (clock w) (trace w ++ [call topic]))
  end.
Proof.
  unfold fan_out_body, transport_call, _publish.
  rewrite bind_unfold. unfold client_publish.
  destruct (publish_error c w topic payload qos retain properties);
    reflexivity.
Qed.

(** As long as the transport returns, every topic gets its call, in list
    order. *)
Lemma fan_out_returns ts : forall w,
  (forall w' topic, In topic ts ->
     publish_error c w' topic payload qos retain properties = None) ->
  for_in ts body w =
  (Return tt, mkWorld (clock w) (trace w ++ map call ts)).
Proof.
  induction ts as [|t ts IH]; intros w Hok.
  - cbn. unfold M_ret. rewrite app_nil_r. now destruct w.
  - cbn [for_in]. rewrite bind_unfold, publish_body_run.
    rewrite Hok by (left; reflexivity).
    rewrite IH by (intros w' topic Hin; apply Hok; right; exact Hin).
    cbn. rewrite <- app_assoc. reflexivity.
Qed.

(** Whatever the transport does, the calls made are those of a prefix of
    the topic list, and nothing else happens. *)
Lemma fan_out_any ts : forall w,
  exists n,
    n <= List.length ts /\
    snd (for_in ts body w) =
      mkWorld (clock w) (trace w ++ map call (firstn n ts)) /\
    match fst (for_in ts body w) with
    | Return _ => n = List.length ts
    | Raise e => exists msg, e = TransportError msg
    end.
Proof.
  induction ts as [|t ts IH]; intros w.
  - exists 0. cbn. rewrite app_nil_r. destruct w. auto.
  - cbn [for_in]. rewrite bind_unfold, publish_body_run.
    destruct (publish_error c w t payload qos retain properties) as [msg|].
    + exists 1. cbn. repeat split; [lia | now exists msg].
    + destruct (IH (mkWorld (clock w) (trace w ++ [call t])))
        as (n & Hn & Hsnd & Hfst).
      exists (S n). cbn [List.length firstn map].
      split; [lia|]. split.
      * rewrite Hsnd. cbn. now rewrite <- app_assoc.
      * destruct (fst _); [lia | exact Hfst].
Qed.

End FanOut.

Lemma publish_unfold self payload qos retain properties :
  publish self payload qos retain properties =
  for_in (topics self)
         (fan_out_body (client self) payload qos retain properties).
Proof. reflexivity. Qed.

Lemma publish_extends self payload qos retain properties w :
  exists evs,
    trace (snd (publish self payload qos retain properties w)) =
      trace w ++ evs.
Proof.
  destruct (fan_out_any (client self) payload qos retain properties
              (topics self) w) as (n & _ & Hsnd & _).
  rewrite publish_unfold, Hsnd. now eexists.
Qed.

Lemma publish_each_extends self reqs : forall w,
  exists evs, trace (snd (publish_each self reqs w)) = trace w ++ evs.
Proof.
  induction reqs as [|r reqs IH]; intros w.
  - exists []. cbn. now rewrite app_nil_r.
  - cbn [publish_each]. rewrite bind_unfold.
    destruct (publish_extends self (req_payload r) (req_qos r) (req_retain r)
                (req_properties r) w) as (evs1 & H1).
    destruct (publish self _ _ _ _ w) as [[[]|e] w1]; cbn [snd] in *.
    + destruct (IH w1) as (evs2 & H2).
      exists (evs1 ++ evs2). now rewrite H2, H1, app_assoc.
    + now exists evs1.
Qed.

Lemma append_topics_run ts : forall acc w,
  append_topics acc ts w =
  (Return (acc ++ ts), mkWorld (clock w) (trace w ++ map topic_line ts)).
Proof.
  induction ts as [|t ts IH]; intros acc w.
  - cbn. unfold M_ret. rewrite !app_nil_r. now destruct w.
  - cbn [append_topics]. rewrite bind_unfold. cbn [logging_info emit].
    rewrite IH. cbn. rewrite <- !app_assoc. reflexivity.
Qed.

Lemma quiet_no_publish evs :
  forallb quiet evs = true -> existsb is_publish evs = false.
Proof.
  induction evs as [|e evs IH]; cbn; [reflexivity|].
  intros H. apply andb_true_iff in H as [He Hevs].
  rewrite (IH Hevs). destruct e; cbn in *; congruence.
Qed.

Lemma quiet_no_loop_stop evs :
  forallb quiet evs = true -> existsb is_loop_stop evs = false.
Proof.
  induction evs as [|e evs IH]; cbn; [reflexivity|].
  intros H. apply andb_true_iff in H as [He Hevs].
  rewrite (IH Hevs). destruct e; cbn in *; congruence.
Qed.

(** Construction, by its outcome.  Either it raises before any publish call,
    or it returns the sender, and then its last liveness query answered
    true before the callback was set and the topics were appended. *)
Lemma init_run c env w :
  exists j pre,
    existsb is_publish pre = false /\
    ((exists e,
        __init__ c env w =
          (Raise e, mkWorld (clock w + j) (trace w ++ pre))) \/
     __init__ c env w =
       (Return (mkMQTTSender "MQTTSender" c (MQTT_SENDER_TOPICS env)),
        mkWorld (clock w + j)
          (trace w ++ pre ++ IsConnected true :: LoopStop true
             :: SetOnPublish :: map topic_line (MQTT_SENDER_TOPICS env)))).
Proof.
  unfold __init__. cbv zeta.
  rewrite bind_unfold. cbn [logging_info emit].
  rewrite bind_unfold. unfold _connect. cbn [clock trace].
  destruct (connect_error c _) as [msg|].
  - exists 0, [setting_line env;
               Connect (MQTT_SENDER_USERNAME env) (MQTT_SENDER_PASSWORD env)
                 (MQTT_SENDER_HOSTNAME env) (MQTT_SENDER_PORT env)].
    split; [reflexivity|]. left. exists (TransportError msg).
    rewrite Nat.add_0_r, <- app_assoc. reflexivity.
  - rewrite bind_unfold. cbn [logging_info emit clock trace].
    rewrite bind_unfold.
    match goal with
    | |- context [test_connection c env ?w1] =>
        destruct (test_connection_any c env w1)
          as (j & evs & b & _ & _ & _ & Hquiet & _ & Hrun)
    end.
    rewrite Hrun. cbn [clock trace].
    exists j,
      ([setting_line env;
        Connect (MQTT_SENDER_USERNAME env) (MQTT_SENDER_PASSWORD env)
          (MQTT_SENDER_HOSTNAME env) (MQTT_SENDER_PORT env);
        Log INFO "MQTTSender now testing connection..."; LoopStart]
       ++ evs
       ++ (if b then []
           else [IsConnected false;
                 Log CRITICAL "MQTTSender timed out while connecting"])).
    split.
    + rewrite existsb_app. cbn [existsb is_publish setting_line orb].
      rewrite existsb_app, (quiet_no_publish evs Hquiet).
      now destruct b.
    + destruct b.
      * right. rewrite bind_unfold. cbn [client_set_on_publish emit].
        rewrite bind_unfold, append_topics_run. cbn.
        rewrite <- ?app_assoc. cbn. rewrite <- ?app_assoc. reflexivity.
      * left. exists (SystemExit (-1)).
        rewrite <- ?app_assoc. cbn. rewrite <- ?app_assoc. reflexivity.
Qed.

Lemma topic_lines_no_publish ts : existsb is_publish (map topic_line ts) = false.
Proof. induction ts as [|t ts IH]; [reflexivity | exact IH]. Qed.

Lemma no_publish_inside before e after :
  existsb is_publish (before ++ e :: after) = false -> is_publish e = false.
Proof.
  rewrite existsb_app. cbn. intros H.
  apply orb_false_iff in H as [_ H]. now apply orb_false_iff in H as [H _].
Qed.

(** * The readiness check *)

(** C2.  When the liveness predicate never becomes true and the configured
    timeout is positive, the readiness check sleeps exactly that many
    seconds, one second before each poll, queries once more, logs at
    critical severity and raises [SystemExit(-1)], which ends the process
    with a non-zero status. *)
Theorem test_connection_timeout c env w :
  (0 < MQTT_CLIENT_CONNECTION_TIMEOUT_SECONDS env)%Z ->
  never_live c ->
  let n := Z.to_nat (MQTT_CLIENT_CONNECTION_TIMEOUT_SECONDS env) in
  let evs := LoopStart :: idle_polls n
               ++ [IsConnected false;
                   Log CRITICAL "MQTTSender timed out while connecting"] in
  test_connection c env w =
    (Raise (SystemExit (-1)), mkWorld (clock w + n) (trace w ++ evs)) /\
  slept evs = n /\
  exits_nonzero (fst (test_connection c env w)).
Proof.
  intros Hpos Hnever n evs.
  assert (Hrun : test_connection c env w =
            (Raise (SystemExit (-1)), mkWorld (clock w + n) (trace w ++ evs))).
  { rewrite test_connection_miss by (intros w' _; apply Hnever).
    rewrite (wait_bound_positive env Hpos). reflexivity. }
  split; [exact Hrun|]. split.
  - unfold evs. cbn [slept]. rewrite slept_app, slept_idle_polls. cbn. lia.
  - rewrite Hrun. cbn. discriminate.
Qed.

Lemma test_connection_timeout_witness :
  (0 < MQTT_CLIENT_CONNECTION_TIMEOUT_SECONDS (env_with [] 3))%Z /\
  never_live dead /\
  test_connection dead (env_with [] 3) w0 =
    (Raise (SystemExit (-1)),
     mkWorld 3 [LoopStart;
                Sleep 1; IsConnected false;
                Sleep 1; IsConnected false;
                Sleep 1; IsConnected false;
                IsConnected false;
                Log CRITICAL "MQTTSender timed out while connecting"]).
Proof.
  split; [reflexivity|]. split; [intros w; reflexivity|].
  apply (test_connection_timeout dead (env_with [] 3) w0);
    [reflexivity | intros w; reflexivity].
Defined.



(** C4.  When the liveness predicate is down before second [k] and up at
    second [k], for a [k] from 1 up to the configured timeout, the readiness
    check returns normally after exactly [k] one-second sleeps: the poll of
    second [k] leaves the loop, the remaining seconds of the timeout are not
    waited, and nothing is raised. *)
Theorem test_connection_short_circuit c env w k :
  1 <= k ->
  (Z.of_nat k <= MQTT_CLIENT_CONNECTION_TIMEOUT_SECONDS env)%Z ->
  first_live_at c (clock w) k ->
  let evs := LoopStart :: idle_polls (k - 1)
               ++ [Sleep 1; IsConnected true; connected_after (k - 1);
                   IsConnected true; LoopStop true] in
  test_connection c env w = (Return tt, mkWorld (clock w + k) (trace w ++ evs)) /\
  slept evs = k.
Proof.
  intros Hk Hle [Hdown Hup] evs. subst evs.
  destruct k as [|k]; [lia|]. cbn [Nat.sub]. rewrite Nat.sub_0_r. split.
  - apply test_connection_hit.
    + unfold wait_bound. lia.
    + intros w' Hw'. apply Hdown. lia.
    + exact Hup.
  - cbn [slept]. rewrite slept_app, slept_idle_polls. cbn. lia.
Qed.

Lemma test_connection_short_circuit_witness :
  first_live_at (live_at 2) (clock w0) 2 /\
  test_connection (live_at 2) (env_with [] 5) w0 =
    (Return tt,
     mkWorld 2 [LoopStart; Sleep 1; IsConnected false;
                Sleep 1; IsConnected true; connected_after 1;
                IsConnected true; LoopStop true]).
Proof.
  assert (H : first_live_at (live_at 2) (clock w0) 2).
  { split; intros w Hw; unfold live_at; cbn [connected clock w0 Nat.add] in *.
    - apply Nat.leb_gt. exact Hw.
    - apply Nat.leb_le. rewrite Hw. apply Nat.le_refl. }
  split; [exact H|].
  apply (test_connection_short_circuit (live_at 2) (env_with [] 5) w0 2);
    [apply Nat.le_succ_diag_r | discriminate | exact H].
Defined.

(** C10.  No liveness query is made at time zero.  Every run of the
    readiness check starts the loop, sleeps one second and only then polls;
    with a connection that is up from entry on, the check succeeds after
    exactly one sleep and one poll of the loop (reported as 0 seconds),
    followed by the closing query and the forced loop stop. *)
Theorem first_poll_after_one_second c env w :
  (exists b rest,
     trace (snd (test_connection c env w)) =
       trace w ++ LoopStart :: Sleep 1 :: IsConnected b :: rest) /\
  (live_since c (clock w) ->
   for_in (range (wait_bound env)) (poll c) w =
     (Return tt,
      mkWorld (clock w + 1)
        (trace w ++ [Sleep 1; IsConnected true; connected_after 0])) /\
   test_connection c env w =
     (Return tt,
      mkWorld (clock w + 1)
        (trace w ++ [LoopStart; Sleep 1; IsConnected true; connected_after 0;
                     IsConnected true; LoopStop true]))).
Proof.
  split.
  - destruct (test_connection_any c env w)
      as (j & evs & b & _ & _ & _ & _ & (b1 & rest & Hhead) & Hrun).
    rewrite Hrun, Hhead. cbn [snd trace app]. now eexists _, _.
  - intros Hlive.
    assert (Hb : (Z.of_nat 1 <= wait_bound env)%Z) by (unfold wait_bound; lia).
    split.
    + unfold range. apply (for_in_poll_hit c 0).
      * lia.
      * intros w' Hw'. lia.
      * intros w' Hw'. apply Hlive. lia.
    + apply (test_connection_hit c env w 0 Hb).
      * intros w' Hw'. lia.
      * intros w' Hw'. apply Hlive. lia.
Qed.

Lemma first_poll_after_one_second_witness :
  live_since (live_at 0) (clock w0) /\
  test_connection (live_at 0) (env_with [] 5) w0 =
    (Return tt,
     mkWorld 1 [LoopStart; Sleep 1; IsConnected true; connected_after 0;
                IsConnected true; LoopStop true]).
Proof.
  assert (H : live_since (live_at 0) (clock w0)) by (intros w _; reflexivity).
  split; [exact H|].
  apply (proj2 (first_poll_after_one_second (live_at 0) (env_with [] 5) w0) H).
Defined.

(** C9, at the scenario of the specification: topics [["sensors/temp"]],
    timeout 5, connection up from second 2.  Construction succeeds after two
    one-second sleeps, and the debug line reports the loop index, 1, not the
    2 seconds that elapsed. *)
Theorem debug_line_reports_loop_index :
  __init__ (live_at 2) (env_with ["sensors/temp"] 5) w0 =
    (Return (mkMQTTSender "MQTTSender" (live_at 2) ["sensors/temp"]),
     mkWorld 2
       [setting_line (env_with ["sensors/temp"] 5);
        Connect "user" "secret" "broker" 1883;
        Log INFO "MQTTSender now testing connection...";
        LoopStart;
        Sleep 1; IsConnected false;
        Sleep 1; IsConnected true;
        Log DEBUG "MQTTSender connected after 1 seconds";
        IsConnected true; LoopStop true; SetOnPublish;
        topic_line "sensors/temp"]) /\
  connected_after 2 = Log DEBUG "MQTTSender connected after 2 seconds" /\
  ~ In (connected_after 2)
       (trace (snd (__init__ (live_at 2) (env_with ["sensors/temp"] 5) w0))).
Proof.
  split; [reflexivity|]. split; [reflexivity|].
  cbn. intros H.
  repeat (destruct H as [H|H]; [discriminate H|]). exact H.
Qed.

(** C7, as stated, fails on the timeout path: with a client that never
    connects the check ends by raising [SystemExit(-1)], and its trace holds
    no [loop_stop] call. *)
Lemma loop_left_running_on_timeout :
  fst (test_connection dead (env_with [] 1) w0) = Raise (SystemExit (-1)) /\
  trace (snd (test_connection dead (env_with [] 1) w0)) =
    [LoopStart; Sleep 1; IsConnected false; IsConnected false;
     Log CRITICAL "MQTTSender timed out while connecting"] /\
  existsb is_loop_stop
    (trace (snd (test_connection dead (env_with [] 1) w0))) = false.
Proof. repeat split. Qed.

(** C7, amended.  The closing liveness query, made in the world the polling
    loop ends in, decides.  When it answers true, readiness is confirmed:
    [loop_stop(force=True)] is called, as the last call, and the check
    returns.  When it answers false, the timeout is reached: the check logs
    at critical level and raises [SystemExit(-1)] instead of returning, and
    [loop_stop] has not been called at any point. *)
Theorem loop_stop_exactly_on_success c env w :
  exists polls,
    let w' := mkWorld (clock w + slept polls)
                (trace w ++ LoopStart :: polls) in
    for_in (range (wait_bound env)) (poll c)
           (mkWorld (clock w) (trace w ++ [LoopStart])) = (Return tt, w') /\
    existsb is_loop_stop polls = false /\
    test_connection c env w =
      if connected c w'
      then (Return tt,
            mkWorld (clock w')
              (trace w ++ LoopStart :: polls
                 ++ [IsConnected true; LoopStop true]))
      else (Raise (SystemExit (-1)),
            mkWorld (clock w')
              (trace w ++ LoopStart :: polls
                 ++ [IsConnected false;
                     Log CRITICAL "MQTTSender timed out while connecting"])).
Proof.
  destruct (for_in_poll_any c (Z.to_nat (wait_bound env)) 0
              (mkWorld (clock w) (trace w ++ [LoopStart])))
    as (j & polls & Hloop & _ & _ & Hslept & Hquiet & _).
  cbn [clock trace] in Hloop. rewrite <- app_assoc in Hloop.
  cbn [app] in Hloop.
  exists polls. cbv zeta. rewrite Hslept.
  split; [exact Hloop|].
  split; [exact (quiet_no_loop_stop polls Hquiet)|].
  rewrite test_connection_run. unfold range in *. rewrite Hloop.
  cbn [clock trace].
  destruct (connected c _); rewrite <- app_assoc; reflexivity.
Qed.

(** * The fan-out *)

(** C1.  On a sender whose topic list is [["a"; "b"; "c"]], and with a
    transport that returns from each call, [publish] makes exactly three
    transport publish calls, for "a", "b" and "c" in that order, each with
    the payload, qos, retain and properties it was given, and returns. *)
Theorem publish_abc_three_calls self payload qos retain properties w :
  topics self = ["a"; "b"; "c"]%string ->
  (forall w' topic,
     publish_error (client self) w' topic payload qos retain properties
       = None) ->
  publish self payload qos retain properties w =
    (Return tt,
     mkWorld (clock w)
       (trace w ++ [Publish "a" payload qos retain properties;
                    Publish "b" payload qos retain properties;
                    Publish "c" payload qos retain properties])).
Proof.
  intros Hts Hok. rewrite publish_unfold, Hts.
  apply (fan_out_returns (client self) payload qos retain properties
           ["a"; "b"; "c"]%string w).
  intros w' topic _. apply Hok.
Qed.

Lemma publish_abc_three_calls_witness :
  publish (mkMQTTSender "MQTTSender" (live_at 0) ["a"; "b"; "c"]%string)
          (PyBytes [Byte.x68; Byte.x69]) (PyInt 1) (PyBool true) PyNone w0 =
    (Return tt,
     mkWorld 0
       [Publish "a" (PyBytes [Byte.x68; Byte.x69]) (PyInt 1) (PyBool true) PyNone;
        Publish "b" (PyBytes [Byte.x68; Byte.x69]) (PyInt 1) (PyBool true) PyNone;
        Publish "c" (PyBytes [Byte.x68; Byte.x69]) (PyInt 1) (PyBool true) PyNone]).
Proof.
  apply (publish_abc_three_calls
           (mkMQTTSender "MQTTSender" (live_at 0) ["a"; "b"; "c"]%string)
           (PyBytes [Byte.x68; Byte.x69]) (PyInt 1) (PyBool true) PyNone w0);
    [reflexivity | intros w' topic; reflexivity].
Defined.

(** C5.  On a sender whose topic list is empty, [publish] makes no call at
    all and returns: the world is left as it was, whatever the client. *)
Theorem publish_empty_noop self payload qos retain properties w :
  topics self = [] ->
  publish self payload qos retain properties w = (Return tt, w).
Proof. intros Hts. unfold publish. rewrite Hts. reflexivity. Qed.

Lemma publish_empty_noop_witness :
  publish (mkMQTTSender "MQTTSender" (refusing "a") [])
          (PyBytes []) default_qos default_retain default_properties w0 =
    (Return tt, w0).
Proof.
  apply (publish_empty_noop (mkMQTTSender "MQTTSender" (refusing "a") [])).
  reflexivity.
Defined.

(** C6.  On a sender whose topic list is [["a"; "b"; "c"]], when the
    transport returns from the call for "a" and raises on the call for "b",
    [publish] ends with that exception uncaught; the call for "a" has been
    made, the call for "b" is the last one, and none is made for "c". *)
Theorem publish_fail_stop self payload qos retain properties w msg :
  topics self = ["a"; "b"; "c"]%string ->
  publish_error (client self) w "a" payload qos retain properties = None ->
  publish_error (client self)
    (mkWorld (clock w) (trace w ++ [Publish "a" payload qos retain properties]))
    "b" payload qos retain properties = Some msg ->
  publish self payload qos retain properties w =
    (Raise (TransportError msg),
     mkWorld (clock w)
       (trace w ++ [Publish "a" payload qos retain properties;
                    Publish "b" payload qos retain properties])) /\
  ~ In (Publish "c" payload qos retain properties)
       [Publish "a" payload qos retain properties;
        Publish "b" payload qos retain properties].
Proof.
  intros Hts Ha Hb. split.
  - rewrite publish_unfold, Hts. cbn [for_in].
    rewrite bind_unfold, publish_body_run, Ha. unfold transport_call.
    rewrite bind_unfold, publish_body_run, Hb. unfold transport_call.
    cbn. rewrite <- app_assoc. reflexivity.
  - cbn. intros [H|[H|H]]; [discriminate H | discriminate H | exact H].
Qed.

Lemma publish_fail_stop_witness :
  publish (mkMQTTSender "MQTTSender" (refusing "b") ["a"; "b"; "c"]%string)
          (PyBytes [Byte.x68; Byte.x69]) default_qos default_retain
          default_properties w0 =
    (Raise (TransportError "refused"),
     mkWorld 0
       [Publish "a" (PyBytes [Byte.x68; Byte.x69]) (PyInt 0) (PyBool false) PyNone;
        Publish "b" (PyBytes [Byte.x68; Byte.x69]) (PyInt 0) (PyBool false) PyNone]).
Proof.
  apply (publish_fail_stop
           (mkMQTTSender "MQTTSender" (refusing "b") ["a"; "b"; "c"]%string)
           (PyBytes [Byte.x68; Byte.x69]) default_qos default_retain
           default_properties w0 "refused");
    reflexivity.
Defined.

(** * Construction before use *)

(** C8.  Construction makes no transport publish call; when it returns the
    sender, a liveness query has answered true before the callback was set
    and before the topics were appended; when readiness is not confirmed it
    raises instead and no sender exists.  Hence in any program that
    constructs the sender and then publishes, every transport publish call
    comes after a liveness query that answered true. *)
Theorem publish_only_after_confirmed c env reqs w :
  (exists pre,
     existsb is_publish pre = false /\
     match fst (__init__ c env w) with
     | Return self =>
         self = mkMQTTSender "MQTTSender" c (MQTT_SENDER_TOPICS env) /\
         trace (snd (__init__ c env w)) =
           trace w ++ pre ++ IsConnected true :: LoopStop true
             :: SetOnPublish :: map topic_line (MQTT_SENDER_TOPICS env)
     | Raise _ => trace (snd (__init__ c env w)) = trace w ++ pre
     end) /\
  (exists evs,
     trace (snd (construct_then_publish c env reqs w)) = trace w ++ evs /\
     forall before e after,
       evs = before ++ e :: after -> is_publish e = true ->
       In (IsConnected true) before).
Proof.
  destruct (init_run c env w) as (j & pre & Hpre & [[e Hrun] | Hrun]).
  - split.
    + exists pre. rewrite Hrun. cbn. auto.
    + exists pre. unfold construct_then_publish.
      rewrite bind_unfold, Hrun. cbn [snd trace]. split; [reflexivity|].
      intros before e' after Hsplit He'. subst pre.
      rewrite (no_publish_inside _ _ _ Hpre) in He'. discriminate He'.
  - split.
    + exists pre. rewrite Hrun. cbn. auto.
    + unfold construct_then_publish. rewrite bind_unfold, Hrun.
      set (self := mkMQTTSender _ _ _). set (w1 := mkWorld _ _).
      destruct (publish_each_extends self reqs w1) as (evs2 & Hext).
      set (built := pre ++ IsConnected true :: LoopStop true
                      :: SetOnPublish :: map topic_line (MQTT_SENDER_TOPICS env)).
      assert (Hbuilt : existsb is_publish built = false).
      { unfold built. rewrite existsb_app, Hpre. cbn.
        apply topic_lines_no_publish. }
      assert (Hlive : In (IsConnected true) built).
      { unfold built. apply in_or_app. right. left. reflexivity. }
      exists (built ++ evs2). split.
      { rewrite Hext. unfold w1, built. cbn [trace].
        now rewrite <- !app_assoc. }
      intros before e after Hsplit He.
      symmetry in Hsplit.
      apply app_eq_app in Hsplit as [l [[Hbefore _] | [Hb Hrest]]].
      * rewrite Hbefore. apply in_or_app. left. exact Hlive.
      * destruct l as [|e' l].
        -- rewrite app_nil_r in Hb. rewrite <- Hb. exact Hlive.
        -- injection Hrest as He' _. subst e'.
           rewrite Hb in Hbuilt.
           rewrite (no_publish_inside _ _ _ Hbuilt) in He. discriminate He.
Qed.

Lemma publish_only_after_confirmed_witness :
  trace (snd (construct_then_publish (live_at 1) (env_with ["t"]%string 5)
                [mkRequest (PyBytes [Byte.x68]) default_qos default_retain
                           default_properties] w0)) =
    [setting_line (env_with ["t"]%string 5);
     Connect "user" "secret" "broker" 1883;
     Log INFO "MQTTSender now testing connection...";
     LoopStart; Sleep 1; IsConnected true; connected_after 0;
     IsConnected true; LoopStop true; SetOnPublish; topic_line "t";
     Publish "t" (PyBytes [Byte.x68]) (PyInt 0) (PyBool false) PyNone] /\
  exists evs,
    trace (snd (construct_then_publish (live_at 1) (env_with ["t"]%string 5)
                  [mkRequest (PyBytes [Byte.x68]) default_qos default_retain
                             default_properties] w0)) = trace w0 ++ evs /\
    forall before e after,
      evs = before ++ e :: after -> is_publish e = true ->
      In (IsConnected true) before.
Proof.
  split; [reflexivity|].
  apply (proj2 (publish_only_after_confirmed (live_at 1)
                  (env_with ["t"]%string 5)
                  [mkRequest (PyBytes [Byte.x68]) default_qos default_retain
                             default_properties] w0)).
Defined.


(** * Further properties of the readiness check *)

Lemma just_slept_after_sleep w secs :
  just_slept (mkWorld (clock w + secs) (trace w ++ [Sleep secs])) = true.
Proof. unfold just_slept. cbn [trace]. now rewrite rev_app_distr. Qed.

Section ClosingQuery.

Variable c : Client.

(** The loop when every poll, that is every query right after a sleep,
    finds the connection down. *)
Lemma for_in_poll_idle_slept n : forall a w,
  (forall w', just_slept w' = true -> connected c w' = false) ->
  for_in (seq a n) (poll c) w =
  (Return tt, mkWorld (clock w + n) (trace w ++ idle_polls n)).
Proof.
  induction n as [|n IH]; intros a w Hdown.
  - cbn. unfold M_ret. rewrite Nat.add_0_r, app_nil_r. now destruct w.
  - cbn [seq for_in]. rewrite bind_unfold, poll_run. cbn zeta.
    rewrite (Hdown _ (just_slept_after_sleep w 1)).
    rewrite (IH (S a) _ Hdown).
    cbn [clock trace idle_polls]. rewrite <- app_assoc. cbn [app].
    f_equal. f_equal. lia.
Qed.

(** The loop when the polls of seconds 1 to [k] find the connection down
    and the poll of second [S k], in the world it is made in, finds it up. *)
Lemma for_in_poll_hit_at k : forall n a w,
  k < n ->
  (forall w', clock w < clock w' <= clock w + k -> connected c w' = false) ->
  connected c (mkWorld (clock w + S k)
                 (trace w ++ idle_polls k ++ [Sleep 1])) = true ->
  for_in (seq a n) (poll c) w =
  (Return tt,
   mkWorld (clock w + S k)
     (trace w ++ idle_polls k
        ++ [Sleep 1; IsConnected true; connected_after (a + k)])).
Proof.
  induction k as [|k IH]; intros n a w Hk Hdown Hup.
  - destruct n as [|n]; [lia|].
    cbn [seq for_in]. rewrite bind_unfold, poll_run. cbn zeta.
    cbn [idle_polls app] in Hup. rewrite Hup. cbn. now rewrite Nat.add_0_r.
  - destruct n as [|n]; [lia|].
    cbn [seq for_in]. rewrite bind_unfold, poll_run. cbn zeta.
    rewrite Hdown by (cbn; lia).
    rewrite (IH n (S a)).
    + cbn [clock trace]. rewrite <- app_assoc. cbn [app].
      replace (S a + k) with (a + S k) by lia.
      f_equal. f_equal. lia.
    + lia.
    + intros w' Hw'. apply Hdown. cbn in Hw'. lia.
    + cbn [clock trace]. rewrite <- app_assoc. cbn [app idle_polls] in *.
      replace (clock w + 1 + S k) with (clock w + S (S k)) by lia.
      exact Hup.
Qed.

End ClosingQuery.

(** Every run of the polling loop: [k] polls that found the connection
    down, then either a poll that found it up or the end of the range. *)
Lemma for_in_poll_shape c n : forall a w,
  exists k hit,
    (if hit : bool then k < n else k = n) /\
    for_in (seq a n) (poll c) w =
      (Return tt,
       mkWorld (clock w + k + (if hit then 1 else 0))
         (trace w ++ idle_polls k ++ hit_events hit (a + k))).
Proof.
  induction n as [|n IH]; intros a w.
  - exists 0, false. split; [reflexivity|]. cbn. unfold M_ret.
    rewrite !Nat.add_0_r, app_nil_r. now destruct w.
  - cbn [seq for_in]. rewrite bind_unfold, poll_run. cbn zeta.
    destruct (connected c _).
    + exists 0, true. split; [lia|]. cbn. now rewrite !Nat.add_0_r.
    + destruct (IH (S a) (mkWorld (clock w + 1)
                            (trace w ++ [Sleep 1; IsConnected false])))
        as (k & hit & Hk & Hrun).
      exists (S k), hit. split; [destruct hit; lia|].
      rewrite Hrun. cbn [clock trace idle_polls].
      rewrite <- app_assoc. cbn [app].
      replace (S a + k) with (a + S k) by lia.
      f_equal. f_equal. lia.
Qed.

Lemma slept_hit_events hit second :
  slept (hit_events hit second) = if hit then 1 else 0.
Proof. now destruct hit. Qed.

Lemma idle_polls_no_publish n : existsb is_publish (idle_polls n) = false.
Proof. induction n as [|n IH]; [reflexivity | exact IH]. Qed.

(** X1.  Every run of the readiness check, whatever the client answers and
    whatever the configured timeout, has the same shape: [loop_start], then
    [k] polls that find the connection down, then possibly one poll that
    finds it up, with a debug line reporting [k], then the closing query,
    then [loop_stop(force=True)] and a normal return if that query answered
    true, a critical line and [SystemExit(-1)] if not.  Each poll is
    preceded by a sleep of one second, so that the check sleeps at least 1
    and at most [max(1, timeout)] seconds, and it makes no publish call. *)
Theorem test_connection_shape c env w :
  exists k hit b,
    let j := k + (if hit : bool then 1 else 0) in
    let evs := LoopStart :: idle_polls k ++ hit_events hit k
                 ++ IsConnected b :: closing_events b in
    test_connection c env w =
      (if b : bool then Return tt else Raise (SystemExit (-1)),
       mkWorld (clock w + j) (trace w ++ evs)) /\
    (if hit then True else Z.of_nat k = wait_bound env) /\
    1 <= j /\ (Z.of_nat j <= wait_bound env)%Z /\
    slept evs = j /\
    existsb is_publish evs = false.
Proof.
  assert (Hpos : 0 < Z.to_nat (wait_bound env)) by (unfold wait_bound; lia).
  destruct (for_in_poll_shape c (Z.to_nat (wait_bound env)) 0
              (mkWorld (clock w) (trace w ++ [LoopStart])))
    as (k & hit & Hk & Hloop).
  cbn [clock trace Nat.add] in Hloop.
  exists k, hit,
    (connected c (mkWorld (clock w + k + (if hit then 1 else 0))
                    ((trace w ++ [LoopStart]) ++ idle_polls k
                       ++ hit_events hit k))).
  cbv zeta. split; [|split; [|split; [|split; [|split]]]].
  - rewrite test_connection_run. unfold range. rewrite Hloop.
    cbn [clock trace]. unfold closing_events.
    destruct (connected c _); rewrite <- !app_assoc, Nat.add_assoc;
      reflexivity.
  - destruct hit; [exact I | lia].
  - destruct hit; lia.
  - destruct hit; lia.
  - cbn [slept]. rewrite !slept_app, slept_idle_polls, slept_hit_events.
    destruct (connected c _); cbn; lia.
  - cbn [existsb is_publish orb].
    rewrite !existsb_app, idle_polls_no_publish.
    destruct hit; destruct (connected c _); reflexivity.
Qed.

(** X2.  A poll that finds the connection up does not settle the outcome:
    the closing query does.  When the polls of seconds 1 to [k] find the
    connection down, the poll of second [k + 1] finds it up and the closing
    query, made right after the debug line, finds it down again, the check
    has logged the debug line of a successful connect and still logs the
    critical line and raises [SystemExit(-1)], without stopping the loop. *)
Theorem test_connection_drop_after_poll c env w k :
  (Z.of_nat (S k) <= wait_bound env)%Z ->
  (forall w', clock w < clock w' <= clock w + k -> connected c w' = false) ->
  connected c (mkWorld (clock w + S k)
                 (trace w ++ LoopStart :: idle_polls k ++ [Sleep 1])) = true ->
  connected c (mkWorld (clock w + S k)
                 (trace w ++ LoopStart :: idle_polls k
                    ++ [Sleep 1; IsConnected true; connected_after k]))
    = false ->
  test_connection c env w =
    (Raise (SystemExit (-1)),
     mkWorld (clock w + S k)
       (trace w ++ LoopStart :: idle_polls k
          ++ [Sleep 1; IsConnected true; connected_after k;
              IsConnected false;
              Log CRITICAL "MQTTSender timed out while connecting"])).
Proof.
  intros Hk Hdown Hup Hdrop.
  rewrite test_connection_run. unfold range.
  rewrite (for_in_poll_hit_at c k); cbn [clock trace].
  - rewrite <- !app_assoc. cbn [app Nat.add]. rewrite Hdrop. reflexivity.
  - lia.
  - exact Hdown.
  - rewrite <- !app_assoc. exact Hup.
Qed.

Lemma test_connection_drop_after_poll_witness :
  test_connection flapping (env_with [] 5) w0 =
    (Raise (SystemExit (-1)),
     mkWorld 1 [LoopStart; Sleep 1; IsConnected true; connected_after 0;
                IsConnected false;
                Log CRITICAL "MQTTSender timed out while connecting"]).
Proof.
  apply (test_connection_drop_after_poll flapping (env_with [] 5) w0 0).
  - discriminate.
  - intros w' Hw'. cbn in Hw'. lia.
  - reflexivity.
  - reflexivity.
Defined.

(** X3.  Conversely the check succeeds without any debug line when every
    poll of the loop finds the connection down and only the closing query
    finds it up: it has then waited the whole bound of [max(1, timeout)]
    seconds, and it stops the loop and returns. *)
Theorem test_connection_up_at_closing_query c env w :
  (forall w', just_slept w' = true -> connected c w' = false) ->
  connected c (mkWorld (clock w + Z.to_nat (wait_bound env))
                 (trace w ++ LoopStart
                    :: idle_polls (Z.to_nat (wait_bound env)))) = true ->
  test_connection c env w =
    (Return tt,
     mkWorld (clock w + Z.to_nat (wait_bound env))
       (trace w ++ LoopStart :: idle_polls (Z.to_nat (wait_bound env))
          ++ [IsConnected true; LoopStop true])).
Proof.
  intros Hdown Hup.
  rewrite test_connection_run. unfold range.
  rewrite (for_in_poll_idle_slept c _ _ _ Hdown). cbn [clock trace].
  rewrite <- !app_assoc. cbn [app]. rewrite Hup. reflexivity.
Qed.

Lemma test_connection_up_at_closing_query_witness :
  test_connection late (env_with [] 2) w0 =
    (Return tt,
     mkWorld 2 [LoopStart; Sleep 1; IsConnected false;
                Sleep 1; IsConnected false;
                IsConnected true; LoopStop true]).
Proof.
  apply (test_connection_up_at_closing_query late (env_with [] 2) w0).
  - intros w' Hw'. cbn [late connected]. now rewrite Hw'.
  - reflexivity.
Defined.

(** * Further properties of construction *)

(** [__init__], by the outcome of the connect request and of the readiness
    check. *)
Lemma init_by_outcome c env w :
  let w1 := mkWorld (clock w) (trace w ++ [setting_line env]) in
  let w2 := mkWorld (clock w)
              (trace w ++ [setting_line env;
                           Connect (MQTT_SENDER_USERNAME env)
                             (MQTT_SENDER_PASSWORD env)
                             (MQTT_SENDER_HOSTNAME env) (MQTT_SENDER_PORT env)])
  in
  let w3 := mkWorld (clock w)
              (trace w2 ++ [Log INFO "MQTTSender now testing connection..."])
  in
  __init__ c env w =
  match connect_error c w1 with
  | Some msg => (Raise (TransportError msg), w2)
  | None =>
      match test_connection c env w3 with
      | (Return _, w4) =>
          (Return (mkMQTTSender "MQTTSender" c (MQTT_SENDER_TOPICS env)),
           mkWorld (clock w4)
             (trace w4 ++ SetOnPublish
                :: map topic_line (MQTT_SENDER_TOPICS env)))
      | (Raise e, w4) => (Raise e, w4)
      end
  end.
Proof.
  cbv zeta. unfold __init__. cbv zeta.
  rewrite bind_unfold. cbn [logging_info emit].
  rewrite bind_unfold. unfold _connect. cbn [clock trace].
  fold (setting_line env).
  destruct (connect_error c _) as [msg|].
  - rewrite <- app_assoc. reflexivity.
  - rewrite bind_unfold. cbn [logging_info emit clock trace].
    rewrite bind_unfold. rewrite <- !app_assoc. cbn [app].
    destruct (test_connection c env _) as [[[]|e] w4]; [|reflexivity].
    rewrite bind_unfold. cbn [client_set_on_publish emit].
    rewrite bind_unfold, append_topics_run. cbn.
    rewrite <- app_assoc. reflexivity.
Qed.

Lemma test_connection_extends c env w :
  exists evs, trace (snd (test_connection c env w)) = trace w ++ evs.
Proof.
  destruct (test_connection_any c env w)
    as (j & evs & b & _ & _ & _ & _ & _ & Hrun).
  rewrite Hrun. now eexists.
Qed.

Lemma string_append_assoc (s1 s2 s3 : string) :
  ((s1 ++ s2) ++ s3 = s1 ++ s2 ++ s3)%string.
Proof. induction s1 as [|a s1 IH]; cbn; [reflexivity | now rewrite IH]. Qed.

(** X4.  Whatever happens next, construction first writes an INFO line that
    spells out the broker host and port, the user name and, at its very
    end, the password in clear, and then asks the client to connect with
    exactly the four configured values. *)
Theorem init_logs_credentials_then_connects c env w :
  exists rest,
    trace (snd (__init__ c env w)) =
      trace w ++ setting_line env
        :: Connect (MQTT_SENDER_USERNAME env) (MQTT_SENDER_PASSWORD env)
             (MQTT_SENDER_HOSTNAME env) (MQTT_SENDER_PORT env)
        :: rest /\
    exists text,
      setting_line env =
        Log INFO (text ++ " and password " ++ MQTT_SENDER_PASSWORD env)%string.
Proof.
  pose proof (init_by_outcome c env w) as Hrun. cbv zeta in Hrun.
  assert (Htext : exists text,
            setting_line env =
              Log INFO (text ++ " and password "
                          ++ MQTT_SENDER_PASSWORD env)%string).
  { exists ("MQTTSender setting connection to " ++ MQTT_SENDER_HOSTNAME env
            ++ ":" ++ str_int (MQTT_SENDER_PORT env)
            ++ " with username " ++ MQTT_SENDER_USERNAME env)%string.
    unfold setting_line. f_equal.
    rewrite !string_append_assoc. reflexivity. }
  rewrite Hrun. destruct (connect_error c _) as [msg|].
  - exists []. split; [reflexivity | exact Htext].
  - match goal with
    | |- context [test_connection c env ?w3] =>
        destruct (test_connection_extends c env w3) as (evs & Hext);
        destruct (test_connection c env w3) as [[[]|e] w4]
    end; cbn [snd trace] in *; rewrite Hext, <- ?app_assoc; cbn [app];
      eexists; (split; [reflexivity | exact Htext]).
Qed.

(** X5.  When the connect request raises, construction ends with that
    exception right there: the readiness check is not started, nothing is
    slept, no callback is set and no topic is logged.  (The connect request
    is the inherited [_connect], taken as a call that returns or raises.) *)
Theorem init_stops_when_connect_raises c env w msg :
  connect_error c (mkWorld (clock w) (trace w ++ [setting_line env]))
    = Some msg ->
  __init__ c env w =
    (Raise (TransportError msg),
     mkWorld (clock w)
       (trace w ++ [setting_line env;
                    Connect (MQTT_SENDER_USERNAME env)
                      (MQTT_SENDER_PASSWORD env)
                      (MQTT_SENDER_HOSTNAME env) (MQTT_SENDER_PORT env)])).
Proof.
  intros Hrefused. pose proof (init_by_outcome c env w) as Hrun.
  cbv zeta in Hrun. rewrite Hrefused in Hrun. exact Hrun.
Qed.

Lemma init_stops_when_connect_raises_witness :
  __init__ unreachable (env_with ["t"]%string 5) w0 =
    (Raise (TransportError "connection refused"),
     mkWorld 0 [setting_line (env_with ["t"]%string 5);
                Connect "user" "secret" "broker" 1883]).
Proof.
  apply (init_stops_when_connect_raises unreachable
           (env_with ["t"]%string 5) w0 "connection refused").
  reflexivity.
Defined.

(** X6.  When the connect request returns and the connection never comes
    up, construction itself ends with [SystemExit(-1)], after
    [max(1, timeout)] seconds: the exit of the readiness check is not caught
    on the way, the publish callback is never set, no topic is appended or
    logged, and no sender is returned.  With a timeout of zero or less this
    takes one second. *)
Theorem init_exits_on_timeout c env w :
  (forall w', connect_error c w' = None) ->
  never_live c ->
  let n := Z.to_nat (wait_bound env) in
  __init__ c env w =
    (Raise (SystemExit (-1)),
     mkWorld (clock w + n)
       (trace w ++ [setting_line env;
                    Connect (MQTT_SENDER_USERNAME env)
                      (MQTT_SENDER_PASSWORD env)
                      (MQTT_SENDER_HOSTNAME env) (MQTT_SENDER_PORT env);
                    Log INFO "MQTTSender now testing connection...";
                    LoopStart]
          ++ idle_polls n
          ++ [IsConnected false;
              Log CRITICAL "MQTTSender timed out while connecting"])) /\
  ((MQTT_CLIENT_CONNECTION_TIMEOUT_SECONDS env <= 0)%Z -> n = 1).
Proof.
  intros Hconnect Hnever n. split.
  - pose proof (init_by_outcome c env w) as Hrun. cbv zeta in Hrun.
    rewrite Hconnect in Hrun.
    rewrite test_connection_miss in Hrun by (intros w' _; apply Hnever).
    rewrite Hrun. cbn [clock trace]. fold n.
    rewrite <- !app_assoc. reflexivity.
  - intros Hle. unfold n. now rewrite (wait_bound_coerced env Hle).
Qed.

Lemma init_exits_on_timeout_witness :
  __init__ dead (env_with ["t"]%string 0) w0 =
    (Raise (SystemExit (-1)),
     mkWorld 1 [setting_line (env_with ["t"]%string 0);
                Connect "user" "secret" "broker" 1883;
                Log INFO "MQTTSender now testing connection...";
                LoopStart; Sleep 1; IsConnected false; IsConnected false;
                Log CRITICAL "MQTTSender timed out while connecting"]).
Proof.
  apply (proj1 (init_exits_on_timeout dead (env_with ["t"]%string 0) w0
                  (fun _ => eq_refl) (fun _ => eq_refl))).
Defined.

(** X7.  Construction and fan-out together: on a sender that construction
    returned, and with a transport that returns from its calls, [publish]
    calls the transport once for each configured topic, in the configured
    order and as often as a topic is listed, with the arguments it was
    given, and nothing else. *)
Theorem publish_reaches_configured_topics
    c env w self w1 payload qos retain properties :
  __init__ c env w = (Return self, w1) ->
  (forall w' topic,
     publish_error c w' topic payload qos retain properties = None) ->
  publish self payload qos retain properties w1 =
    (Return tt,
     mkWorld (clock w1)
       (trace w1 ++ map (transport_call payload qos retain properties)
                        (MQTT_SENDER_TOPICS env))).
Proof.
  intros Hinit Hok.
  pose proof (init_by_outcome c env w) as Hrun. cbv zeta in Hrun.
  rewrite Hinit in Hrun.
  assert (Hself : self = mkMQTTSender "MQTTSender" c (MQTT_SENDER_TOPICS env)).
  { destruct (connect_error c _); [discriminate Hrun|].
    destruct (test_connection c env _) as [[[]|e] w4];
      [now injection Hrun | discriminate Hrun]. }
  subst self. rewrite publish_unfold. cbn [topics client].
  apply fan_out_returns. intros w' topic _. apply Hok.
Qed.

Lemma publish_reaches_configured_topics_witness :
  publish (mkMQTTSender "MQTTSender" (live_at 1) ["t"; "u"; "t"]%string)
          (PyBytes [Byte.x68]) default_qos default_retain default_properties
          (snd (__init__ (live_at 1) (env_with ["t"; "u"; "t"]%string 5) w0)) =
    (Return tt,
     mkWorld 1
       (trace (snd (__init__ (live_at 1)
                      (env_with ["t"; "u"; "t"]%string 5) w0))
          ++ [Publish "t" (PyBytes [Byte.x68]) (PyInt 0) (PyBool false) PyNone;
              Publish "u" (PyBytes [Byte.x68]) (PyInt 0) (PyBool false) PyNone;
              Publish "t" (PyBytes [Byte.x68]) (PyInt 0) (PyBool false) PyNone])).
Proof.
  apply (publish_reaches_configured_topics (live_at 1)
           (env_with ["t"; "u"; "t"]%string 5) w0
           (mkMQTTSender "MQTTSender" (live_at 1) ["t"; "u"; "t"]%string)
           (snd (__init__ (live_at 1) (env_with ["t"; "u"; "t"]%string 5) w0))
           (PyBytes [Byte.x68]) default_qos default_retain default_properties);
    [reflexivity | intros w' topic; reflexivity].
Defined.

(** * Further properties of the fan-out *)

Section FanOutShape.

Variable c : Client.
Variables payload qos retain properties : pyobj.

Local Abbreviation body := (fan_out_body c payload qos retain properties).
Local Abbreviation call := (transport_call payload qos retain properties).

(** The loop over a list that starts with topics the transport accepts. *)
Lemma fan_out_app pre : forall rest w,
  (forall w' topic, In topic pre ->
     publish_error c w' topic payload qos retain properties = None) ->
  for_in (pre ++ rest) body w =
  for_in rest body (mkWorld (clock w) (trace w ++ map call pre)).
Proof.
  induction pre as [|t pre IH]; intros rest w Hok.
  - cbn. rewrite app_nil_r. now destruct w.
  - cbn [app for_in]. rewrite bind_unfold, publish_body_run.
    rewrite Hok by (left; reflexivity).
    rewrite IH by (intros w' topic Hin; apply Hok; right; exact Hin).
    cbn [clock trace map]. rewrite <- app_assoc. reflexivity.
Qed.

(** Every run of the loop: the calls for the first [n] topics, the last of
    them raising when the loop does not reach the end of the list. *)
Lemma fan_out_prefix ts : forall w,
  exists n,
    n <= List.length ts /\
    snd (for_in ts body w) =
      mkWorld (clock w) (trace w ++ map call (firstn n ts)) /\
    match fst (for_in ts body w) with
    | Return _ => n = List.length ts
    | Raise e =>
        0 < n /\
        exists msg, e = TransportError msg /\
          publish_error c
            (mkWorld (clock w) (trace w ++ map call (firstn (n - 1) ts)))
            (nth (n - 1) ts EmptyString) payload qos retain properties
            = Some msg
    end.
Proof.
  induction ts as [|t ts IH]; intros w.
  - exists 0. cbn. rewrite app_nil_r. destruct w. auto.
  - cbn [for_in]. rewrite bind_unfold, publish_body_run.
    destruct (publish_error c w t payload qos retain properties)
      as [msg|] eqn:Ht.
    + exists 1. cbn. repeat split; [lia | lia |].
      exists msg. split; [reflexivity|].
      rewrite app_nil_r. destruct w. exact Ht.
    + destruct (IH (mkWorld (clock w) (trace w ++ [call t])))
        as (n & Hn & Hsnd & Hfst).
      exists (S n). cbn [List.length firstn map].
      split; [lia|]. split.
      * rewrite Hsnd. cbn. now rewrite <- app_assoc.
      * destruct (fst _); [lia|].
        destruct Hfst as (Hpos & msg & He & Hraise).
        split; [lia|]. exists msg. split; [exact He|].
        destruct n as [|n]; [lia|].
        cbn [Nat.sub] in *. rewrite Nat.sub_0_r in *.
        cbn [firstn map nth clock trace] in *.
        rewrite <- app_assoc in Hraise. exact Hraise.
Qed.

End FanOutShape.

(** X8.  For any topic list, with a transport that returns from the calls
    for its topics, [publish] returns after calling the transport once per
    list entry, in list order, a topic listed twice being called twice; it
    neither sleeps nor logs nor queries the connection. *)
Theorem publish_calls_every_topic self payload qos retain properties w :
  (forall w' topic, In topic (topics self) ->
     publish_error (client self) w' topic payload qos retain properties
       = None) ->
  publish self payload qos retain properties w =
    (Return tt,
     mkWorld (clock w)
       (trace w ++ map (transport_call payload qos retain properties)
                       (topics self))).
Proof.
  intros Hok. rewrite publish_unfold. apply fan_out_returns. exact Hok.
Qed.

Lemma publish_calls_every_topic_witness :
  publish (mkMQTTSender "MQTTSender" (refusing "z") ["t"; "u"; "t"]%string)
          (PyStr "on") (PyInt 2) (PyBool true) PyNone w0 =
    (Return tt,
     mkWorld 0 [Publish "t" (PyStr "on") (PyInt 2) (PyBool true) PyNone;
                Publish "u" (PyStr "on") (PyInt 2) (PyBool true) PyNone;
                Publish "t" (PyStr "on") (PyInt 2) (PyBool true) PyNone]).
Proof.
  apply (publish_calls_every_topic
           (mkMQTTSender "MQTTSender" (refusing "z") ["t"; "u"; "t"]%string)
           (PyStr "on") (PyInt 2) (PyBool true) PyNone w0).
  intros w' topic [H|[H|[H|[]]]]; rewrite <- H; reflexivity.
Defined.

(** X9.  Whatever the transport does, the calls [publish] makes are exactly
    those for the first [n] entries of the topic list, in order, and it does
    nothing else: the clock does not move.  It returns only when all entries
    were called; otherwise it raises, and then the exception is the one the
    transport raised on the last call made, the [n]-th, which is never
    retried. *)
Theorem publish_calls_a_prefix self payload qos retain properties w :
  exists n,
    n <= List.length (topics self) /\
    snd (publish self payload qos retain properties w) =
      mkWorld (clock w)
        (trace w ++ map (transport_call payload qos retain properties)
                        (firstn n (topics self))) /\
    match fst (publish self payload qos retain properties w) with
    | Return _ => n = List.length (topics self)
    | Raise e =>
        0 < n /\
        exists msg, e = TransportError msg /\
          publish_error (client self)
            (mkWorld (clock w)
               (trace w ++ map (transport_call payload qos retain properties)
                               (firstn (n - 1) (topics self))))
            (nth (n - 1) (topics self) EmptyString)
            payload qos retain properties = Some msg
    end.
Proof.
  rewrite publish_unfold.
  exact (fan_out_prefix (client self) payload qos retain properties
           (topics self) w).
Qed.

(** X10.  [publish] stops at the first call the transport refuses: when the
    topic list is [pre ++ t :: post], the calls for [pre] return and the
    call for [t] raises, the exception reaches the caller, the calls made
    are those for [pre] and for [t], and no entry of [post] is called. *)
Theorem publish_stops_at_first_refusal
    self payload qos retain properties w pre t post msg :
  topics self = pre ++ t :: post ->
  (forall w' topic, In topic pre ->
     publish_error (client self) w' topic payload qos retain properties
       = None) ->
  publish_error (client self)
    (mkWorld (clock w)
       (trace w ++ map (transport_call payload qos retain properties) pre))
    t payload qos retain properties = Some msg ->
  publish self payload qos retain properties w =
    (Raise (TransportError msg),
     mkWorld (clock w)
       (trace w ++ map (transport_call payload qos retain properties)
                       (pre ++ [t]))).
Proof.
  intros Hts Hpre Ht. rewrite publish_unfold, Hts.
  rewrite (fan_out_app (client self) payload qos retain properties pre
             (t :: post) w Hpre).
  cbn [for_in]. rewrite bind_unfold, publish_body_run, Ht.
  cbn [clock trace]. rewrite map_app, app_assoc. reflexivity.
Qed.

Lemma publish_stops_at_first_refusal_witness :
  publish (mkMQTTSender "MQTTSender" (refusing "x")
             ["t"; "u"; "x"; "v"; "t"]%string)
          (PyStr "on") default_qos default_retain default_properties w0 =
    (Raise (TransportError "refused"),
     mkWorld 0 [Publish "t" (PyStr "on") (PyInt 0) (PyBool false) PyNone;
                Publish "u" (PyStr "on") (PyInt 0) (PyBool false) PyNone;
                Publish "x" (PyStr "on") (PyInt 0) (PyBool false) PyNone]).
Proof.
  apply (publish_stops_at_first_refusal
           (mkMQTTSender "MQTTSender" (refusing "x")
              ["t"; "u"; "x"; "v"; "t"]%string)
           (PyStr "on") default_qos default_retain default_properties w0
           ["t"; "u"]%string "x"%string ["v"; "t"]%string "refused"%string).
  - reflexivity.
  - intros w' topic [H|[H|[]]]; rewrite <- H; reflexivity.
  - reflexivity.
Defined.

(** * The acknowledgement callback *)

Lemma str_int_inj z1 z2 : str_int z1 = str_int z2 -> z1 = z2.
Proof.
  unfold str_int. intros H.
  assert (Hparse : forall z,
            NilZero.int_of_string (NilZero.string_of_int (Z.to_int z)) =
            Some (Z.to_int z)).
  { intros z. apply NilZero.isi; destruct z; cbn; try discriminate;
      intros [= Hnil]; exact (DecimalPos.Unsigned.to_uint_nonnil _ Hnil). }
  apply DecimalZ.to_int_inj.
  pose proof (Hparse z1) as H1. rewrite H, Hparse in H1. now injection H1.
Qed.

(** X11.  [on_publish] prints one line, the text [mid: ] followed by the
    decimal writing of the message id, and does nothing else.  The client
    and the user data it receives play no part, and two calls print the same
    line exactly when their message ids are equal. *)
Theorem on_publish_line_identifies_mid cl1 ud1 mid1 cl2 ud2 mid2 w :
  on_publish cl1 ud1 mid1 w =
    (Return tt,
     mkWorld (clock w) (trace w ++ [Print ("mid: " ++ str_int mid1)%string])) /\
  (on_publish cl1 ud1 mid1 w = on_publish cl2 ud2 mid2 w <-> mid1 = mid2).
Proof.
  split; [reflexivity|]. split.
  - unfold on_publish, print, emit. intros H.
    injection H as H. apply app_inv_head in H. injection H as H.
    exact (str_int_inj _ _ H).
  - intros ->. reflexivity.
Qed.
